(** * The resource client of src/services/api.js

    The module creates one axios instance, [apiClient], and exports four
    asynchronous functions over it: [fetchPosts], [fetchPostById],
    [fetchUser] and [createPost].  Each of them awaits one call on the
    instance inside a [try] block, returns [response.data], and in its
    [catch] block writes to the console and throws the caught value again;
    [fetchUser] has a [finally] block as well.  [fetchPostById] and
    [fetchUser] build the path of their call, and the prefix of their
    console entry, with a template literal on the id, which throws when the
    id has no text.

    The embedding is shallow.  JavaScript values are an inductive type, an
    asynchronous function body is a tree of effects (awaiting the instance,
    writing to the console) ending in a returned or a thrown value, and
    [try]/[catch]/[finally] are combinators on such trees.  The trees are run
    against an arbitrary transport, sequentially and interleaved. *)

From Stdlib Require Import String Ascii List Bool ZArith Lia PrimFloat SpecFloat FloatOps.
Import ListNotations.
Local Open Scope string_scope.

(** ** JavaScript values *)

Module JS.

#[local] Set Warnings "-register-all".

(** The data fragment of the language: [undefined], [null], booleans,
    numbers (IEEE 754 doubles), strings, arrays and plain objects with their
    own properties in insertion order. *)
Inductive value : Type :=
| VUndefined
| VNull
| VBool (b : bool)
| VNum (n : float)
| VStr (s : string)
| VArr (items : list value)
| VObj (props : list (string * value)).

(** The own properties of a plain object. *)
Definition object : Type := list (string * value).

(** ToBoolean: [undefined], [null], [false], [+0], [-0], [NaN] and the empty
    string are falsy, everything else (every object and array) is truthy. *)
Definition truthy (v : value) : bool :=
  match v with
  | VUndefined | VNull => false
  | VBool b => b
  | VNum n => negb (PrimFloat.eqb n 0%float) && PrimFloat.eqb n n
  | VStr s => negb (String.eqb s "")
  | VArr _ | VObj _ => true
  end.

Definition nullish (v : value) : bool :=
  match v with
  | VUndefined | VNull => true
  | _ => false
  end.

(** [o[key]] on the own properties of a plain object: the first binding of
    [key], [undefined] when there is none. *)
Fixpoint lookup (key : string) (o : object) : value :=
  match o with
  | [] => VUndefined
  | (k, v) :: rest => if String.eqb k key then v else lookup key rest
  end.

(** A formal parameter with a default initialiser, [(x = d) => ...]: the
    initialiser is used when the argument is [undefined], which is also what
    an omitted argument is bound to. *)
Definition default_parameter (arg d : value) : value :=
  match arg with
  | VUndefined => d
  | _ => arg
  end.

(** Number::toString, radix 10.  A finite double other than zero is
    [m * 2^e] exactly; its text is made of the digits of the least [k] for
    which some integer [s] of [k] digits, scaled by a power of ten, reads
    back as the same double, taking the [s] nearest to the double. *)
Module Number.
Local Open Scope Z_scope.

(** [a * 2^ea * 10^qa] against [b * 2^eb * 10^qb], exactly. *)
Definition compare_scaled (a ea qa b eb qb : Z) : comparison :=
  let d2 := Z.min ea eb in
  let d10 := Z.min qa qb in
  Z.compare (a * 2 ^ (ea - d2) * 10 ^ (qa - d10)) (b * 2 ^ (eb - d2) * 10 ^ (qb - d10)).

Fixpoint raise (fuel : nat) (m e N : Z) : Z :=
  match fuel with
  | O => N
  | S fuel' =>
      match compare_scaled m e 0 1 0 N with
      | Lt => N
      | _ => raise fuel' m e (N + 1)
      end
  end.

Fixpoint lower (fuel : nat) (m e N : Z) : Z :=
  match fuel with
  | O => N
  | S fuel' =>
      match compare_scaled m e 0 1 0 (N - 1) with
      | Lt => lower fuel' m e (N - 1)
      | _ => N
      end
  end.

(** The [N] with [10^(N-1) <= m * 2^e < 10^N], from an estimate by the
    binary logarithm that is off by a few units at most. *)
Definition magnitude (m e : Z) : Z :=
  lower 8 m e (raise 8 m e ((Z.log2 m + e) * 30103 / 100000)).

(** Does [s * 10^q] read back as the double [m * 2^e]?  It does between the
    midpoints to the two neighbouring doubles, the midpoints included when
    [m] is even (ties go to even); below a power of two the lower neighbour
    is half as far. *)
Definition rounds_to (m e s q : Z) : bool :=
  let boundary := (m =? 2 ^ 52) && (-1074 <? e) in
  let inclusive := Z.even m in
  let above :=
    match (if boundary then compare_scaled s 0 q (4 * m - 1) (e - 2) 0
           else compare_scaled s 0 q (2 * m - 1) (e - 1) 0) with
    | Gt => true
    | Eq => inclusive
    | Lt => false
    end in
  let below :=
    match compare_scaled s 0 q (2 * m + 1) (e - 1) 0 with
    | Lt => true
    | Eq => inclusive
    | Gt => false
    end in
  above && below.

(** [floor (m * 2^e / 10^q)]. *)
Definition floor_scaled (m e q : Z) : Z :=
  (m * 2 ^ (Z.max e 0) * 10 ^ (Z.max (- q) 0))
  / (2 ^ (Z.max (- e) 0) * 10 ^ (Z.max q 0)).

(** The shortest [s * 10^q] that reads back as [m * 2^e], trying [k] digits
    and then more; seventeen always do. *)
Fixpoint shortest (fuel : nat) (k m e N : Z) : Z * Z :=
  match fuel with
  | O => (0, 0)
  | S fuel' =>
      let q := N - k in
      let s_lo := floor_scaled m e q in
      let s_hi := s_lo + 1 in
      match rounds_to m e s_lo q, rounds_to m e s_hi q with
      | true, true =>
          match compare_scaled (2 * m) e 0 (2 * s_lo + 1) 0 q with
          | Lt => (s_lo, q)
          | Gt => (s_hi, q)
          | Eq => (if Z.even s_lo then s_lo else s_hi, q)
          end
      | true, false => (s_lo, q)
      | false, true => (s_hi, q)
      | false, false => shortest fuel' (k + 1) m e N
      end
  end.

(** Trailing zeros of [s] go to the power of ten. *)
Fixpoint strip (fuel : nat) (s q : Z) : Z * Z :=
  match fuel with
  | O => (s, q)
  | S fuel' =>
      if (0 <? s) && (s mod 10 =? 0) then strip fuel' (s / 10) (q + 1) else (s, q)
  end.

Definition digit (d : Z) : ascii := ascii_of_nat (48 + Z.to_nat d).

Fixpoint digits (fuel : nat) (z : Z) (acc : string) : string :=
  match fuel with
  | O => acc
  | S fuel' =>
      let acc' := String (digit (z mod 10)) acc in
      if z <? 10 then acc' else digits fuel' (z / 10) acc'
  end.

(** The decimal digits of a natural number below [10^400]. *)
Definition decimal (z : Z) : string := digits 400 z "".

Fixpoint zeros (n : nat) : string :=
  match n with
  | O => ""
  | S n' => String "0" (zeros n')
  end.

Definition take (n : Z) (s : string) : string := substring 0 (Z.to_nat n) s.

Definition drop (n : Z) (s : string) : string :=
  substring (Z.to_nat n) (String.length s - Z.to_nat n) s.

(** The digits [ds] with the decimal point after the first [n] of them:
    written out in full when [n] is between -5 and 21, with an exponent
    otherwise. *)
Definition format (ds : string) (n : Z) : string :=
  let k := Z.of_nat (String.length ds) in
  if (k <=? n) && (n <=? 21) then ds ++ zeros (Z.to_nat (n - k))
  else if (0 <? n) && (n <=? 21) then take n ds ++ "." ++ drop n ds
  else if (-6 <? n) && (n <=? 0) then "0." ++ zeros (Z.to_nat (- n)) ++ ds
  else
    let e := n - 1 in
    let exponent := (if 0 <=? e then "+" else "-") ++ decimal (Z.abs e) in
    if k =? 1 then ds ++ "e" ++ exponent
    else take 1 ds ++ "." ++ drop 1 ds ++ "e" ++ exponent.

Definition positive_text (m e : Z) : string :=
  let '(s, q) := shortest 17 1 m e (magnitude m e) in
  let '(s, q) := strip 20 s q in
  let ds := decimal s in
  format ds (Z.of_nat (String.length ds) + q).

End Number.

Definition NumberToString (x : float) : string :=
  match Prim2SF x with
  | S754_nan => "NaN"
  | S754_zero _ => "0"
  | S754_infinity false => "Infinity"
  | S754_infinity true => "-Infinity"
  | S754_finite false m e => Number.positive_text (Zpos m) e
  | S754_finite true m e => "-" ++ Number.positive_text (Zpos m) e
  end.

(** Has the object an own property [key], whatever its value? *)
Definition has_own (key : string) (o : object) : bool :=
  existsb (fun p => String.eqb (fst p) key) o.

(** ToString, as a template literal applies it to a substitution; [None]
    where it throws a TypeError.  A plain object inherits
    Object.prototype.toString unless it has an own [toString] property; an
    own one is no function here (a value of this type never is), so neither
    it nor the inherited [valueOf], which returns the object itself, yields
    a primitive, and the conversion throws.  An array joins the texts of its
    elements with commas, [undefined] and [null] counting as empty. *)
Fixpoint ToString (v : value) : option string :=
  match v with
  | VUndefined => Some "undefined"
  | VNull => Some "null"
  | VBool true => Some "true"
  | VBool false => Some "false"
  | VNum n => Some (NumberToString n)
  | VStr s => Some s
  | VArr items =>
      (fix join (l : list value) : option string :=
         match l with
         | [] => Some ""
         | x :: rest =>
             match (if nullish x then Some "" else ToString x), join rest with
             | Some first, Some others =>
                 Some (match rest with
                       | [] => first
                       | _ :: _ => first ++ "," ++ others
                       end)
             | _, _ => None
             end
         end) items
  | VObj props => if has_own "toString" props then None else Some "[object Object]"
  end.

End JS.
Import JS.

(** ** The axios instance and its transport *)

Module Axios.

(** The configuration an instance is created with ([instance.defaults]); the
    timeout is in milliseconds. *)
Record defaults : Type := {
  baseURL : string;
  headers : list (string * string);
  timeout : Z
}.

(** The two request methods the module calls on the instance, with the
    arguments given at the call site: [instance.get(url, config)], where an
    omitted [config] is [undefined], and [instance.post(url, data)]. *)
Inductive call : Type :=
| get (url : string) (config : value)
| post (url : string) (data : value).

(** How the promise of a call settles: fulfilled with a response object
    ([data], [status], ...) or rejected with an error object ([message], and
    [request] and [response] when there are any). *)
Inductive settled : Type :=
| Fulfilled (response : object)
| Rejected (error : object).

End Axios.

(** ** Asynchronous function bodies *)

Inductive console_method : Type := error_stream | log_stream.

(** A body either returns, throws, awaits a call on the instance and goes on
    with the way it settled, or writes to the console and goes on. *)
Inductive async (A : Type) : Type :=
| Return (a : A)
| Throw (thrown : value)
| Await (c : Axios.call) (k : Axios.settled -> async A)
| Console (m : console_method) (args : list value) (k : async A).

Arguments Return {A} a.
Arguments Throw {A} thrown.
Arguments Await {A} c k.
Arguments Console {A} m args k.

Fixpoint bind {A B : Type} (p : async A) (f : A -> async B) : async B :=
  match p with
  | Return a => f a
  | Throw e => Throw e
  | Await c k => Await c (fun o => bind (k o) f)
  | Console m args k => Console m args (bind k f)
  end.

Declare Scope async_scope.
Delimit Scope async_scope with async.
Notation "x <- p ;; q" := (bind p (fun x => q))
  (at level 61, p at next level, right associativity) : async_scope.
Notation "p ;; q" := (bind p (fun _ => q))
  (at level 61, right associativity) : async_scope.
Local Open Scope async_scope.

(** [try { body } catch (error) { handler error }]. *)
Fixpoint try_catch {A : Type} (body : async A) (handler : value -> async A) : async A :=
  match body with
  | Return a => Return a
  | Throw e => handler e
  | Await c k => Await c (fun o => try_catch (k o) handler)
  | Console m args k => Console m args (try_catch k handler)
  end.

(** [try { body } finally { finalizer }]: the finalizer runs after the body
    however it completed, and the body's completion stands unless the
    finalizer itself throws. *)
Fixpoint try_finally {A : Type} (body : async A) (finalizer : async unit) : async A :=
  match body with
  | Return a => finalizer ;; Return a
  | Throw e => finalizer ;; Throw e
  | Await c k => Await c (fun o => try_finally (k o) finalizer)
  | Console m args k => Console m args (try_finally k finalizer)
  end.

(** [await apiClient.get(url, config)] and [await apiClient.post(url, data)]:
    the value of the expression is the response, a rejection is thrown at
    the [await]. *)
Definition await_settled (c : Axios.call) : async value :=
  Await c (fun o =>
    match o with
    | Axios.Fulfilled response => Return (VObj response)
    | Axios.Rejected error => Throw (VObj error)
    end).

Definition console_error (args : list value) : async unit :=
  Console error_stream args (Return tt).

Definition console_log (args : list value) : async unit :=
  Console log_stream args (Return tt).

(** The TypeError a property read on [undefined] or [null] throws, with the
    message V8 gives it. *)
Definition TypeError (message : string) : value :=
  VObj [("name", VStr "TypeError"); ("message", VStr message)].

(** [v.key].  On [undefined] and [null] the read throws; on a plain object it
    is the own property.  The keys this module reads ([data], [response],
    [request], [message], [status]) are no property of a boolean, a number,
    a string or an array, for which the read gives [undefined]. *)
Definition member (v : value) (key : string) : async value :=
  match v with
  | VUndefined =>
      Throw (TypeError ("Cannot read properties of undefined (reading '" ++ key ++ "')"))
  | VNull =>
      Throw (TypeError ("Cannot read properties of null (reading '" ++ key ++ "')"))
  | VObj props => Return (lookup key props)
  | VBool _ | VNum _ | VStr _ | VArr _ => Return VUndefined
  end.

(** The TypeError of a value that has no text. *)
Definition cannot_convert : value :=
  TypeError "Cannot convert object to primitive value".

(** A substitution [${v}] of a template literal: the text of the value, or
    the TypeError thrown in its place. *)
Definition substitution (v : value) : async string :=
  match ToString v with
  | Some text => Return text
  | None => Throw cannot_convert
  end.

(** ** src/services/api.js *)

(** [const apiClient = axios.create({ baseURL, headers, timeout })], the
    configuration the one instance of the module is created with. *)
Definition apiClient : Axios.defaults := {|
  Axios.baseURL := "https://jsonplaceholder.typicode.com";
  Axios.headers := [("Content-Type", "application/json");
                    ("Accept", "application/json")];
  Axios.timeout := 10000
|}.

(** [export const fetchPosts = async (limit = 10) => ...]. *)
Definition fetchPosts (limit : value) : async value :=
  let limit := default_parameter limit (VNum 10) in
  try_catch
    (response <- await_settled
                   (Axios.get "/posts" (VObj [("params", VObj [("_limit", limit)])])) ;;
     member response "data")
    (fun error =>
       r <- member error "response" ;;
       (if truthy r then
          r1 <- member error "response" ;;
          status <- member r1 "status" ;;
          r2 <- member error "response" ;;
          data <- member r2 "data" ;;
          console_error [VStr "Server Error:"; status; data]
        else
          q <- member error "request" ;;
          if truthy q then
            q1 <- member error "request" ;;
            console_error [VStr "Network Error:"; q1]
          else
            message <- member error "message" ;;
            console_error [VStr "Error:"; message]) ;;
       Throw error).

(** [export const createPost = async (postData) => ...]. *)
Definition createPost (postData : value) : async value :=
  try_catch
    (response <- await_settled (Axios.post "/posts" postData) ;;
     member response "data")
    (fun error =>
       console_error [VStr "Error creating post:"; error] ;;
       Throw error).

(** [export const fetchPostById = async (id) => ...].  The template literal
    is evaluated before the call is made, and the one of the [catch] block
    before [console.error] is called. *)
Definition fetchPostById (id : value) : async value :=
  try_catch
    (text <- substitution id ;;
     response <- await_settled (Axios.get ("/posts/" ++ text) VUndefined) ;;
     member response "data")
    (fun error =>
       text <- substitution id ;;
       console_error [VStr ("Error fetching post with ID " ++ text ++ ":"); error] ;;
       Throw error).

(** [export const fetchUser = async (id) => ...]. *)
Definition fetchUser (id : value) : async value :=
  try_finally
    (try_catch
       (text <- substitution id ;;
        response <- await_settled (Axios.get ("/users/" ++ text) VUndefined) ;;
        member response "data")
       (fun error =>
          text <- substitution id ;;
          console_error [VStr ("Error fetching user with ID " ++ text ++ ":"); error] ;;
          Throw error))
    (console_log [VStr "User fetch operation completed"]).

(** The four exported functions applied to their argument. *)
Inductive operation : Type :=
| FetchPosts (limit : value)
| FetchPostById (id : value)
| FetchUser (id : value)
| CreatePost (postData : value).

Definition perform (op : operation) : async value :=
  match op with
  | FetchPosts limit => fetchPosts limit
  | FetchPostById id => fetchPostById id
  | FetchUser id => fetchUser id
  | CreatePost postData => createPost postData
  end.

(** ** Running a body against a transport *)

(** What a run leaves behind, in order: a call handed to the transport
    together with the instance configuration in force, the settling of that
    call, and a console write. *)
Inductive event : Type :=
| Sent (d : Axios.defaults) (c : Axios.call)
| Settled (o : Axios.settled)
| Wrote (m : console_method) (args : list value).

(** How the promise of an asynchronous function settles: fulfilled with the
    returned value, or rejected with the thrown one. *)
Inductive completion (A : Type) : Type :=
| Normal (a : A)
| Abrupt (thrown : value).

Arguments Normal {A} a.
Arguments Abrupt {A} thrown.

Section Transport.

(** The remote service and the network are a state machine of their own:
    given the configuration of the instance and a call, [dispatch] settles
    the call and moves the remote state.  The transport's timeout makes every
    call settle. *)
Variable world : Type.
Variable dispatch : Axios.defaults -> Axios.call -> world -> Axios.settled * world.

Record state : Type := {
  instance : Axios.defaults;
  remote : world
}.

Fixpoint run {A : Type} (p : async A) (s : state) : completion A * list event * state :=
  match p with
  | Return a => (Normal a, [], s)
  | Throw e => (Abrupt e, [], s)
  | Await c k =>
      let (o, w) := dispatch (instance s) c (remote s) in
      let '(r, evs, s') := run (k o) {| instance := instance s; remote := w |} in
      (r, Sent (instance s) c :: Settled o :: evs, s')
  | Console m args k =>
      let '(r, evs, s') := run k s in
      (r, Wrote m args :: evs, s')
  end.

Definition outcome {A : Type} (p : async A) (s : state) : completion A :=
  fst (fst (run p s)).

Definition events {A : Type} (p : async A) (s : state) : list event :=
  snd (fst (run p s)).

Definition final {A : Type} (p : async A) (s : state) : state :=
  snd (run p s).

(** The calls handed to the transport. *)
Definition calls (evs : list event) : list Axios.call :=
  flat_map (fun e => match e with Sent _ c => [c] | _ => [] end) evs.

End Transport.

(** The state once the module is loaded: the instance as [axios.create]
    made it. *)
Definition loaded {world : Type} (w : world) : state world :=
  {| instance := apiClient; remote := w |}.

Arguments instance {world} s.
Arguments remote {world} s.
Arguments run {world} dispatch {A} p s.
Arguments outcome {world} dispatch {A} p s.
Arguments events {world} dispatch {A} p s.
Arguments final {world} dispatch {A} p s.

(** The call an operation hands to the instance, the argument of the one
    [apiClient.get] or [apiClient.post] in its body; none when the template
    literal that builds the path throws. *)
Definition request_of (op : operation) : option Axios.call :=
  match op with
  | FetchPosts limit =>
      Some (Axios.get "/posts"
              (VObj [("params", VObj [("_limit", default_parameter limit (VNum 10))])]))
  | FetchPostById id =>
      option_map (fun text => Axios.get ("/posts/" ++ text) VUndefined) (ToString id)
  | FetchUser id =>
      option_map (fun text => Axios.get ("/users/" ++ text) VUndefined) (ToString id)
  | CreatePost postData => Some (Axios.post "/posts" postData)
  end.

(** The calls an operation makes: one, or none. *)
Definition requests (op : operation) : list Axios.call :=
  match request_of op with
  | Some c => [c]
  | None => []
  end.

(** Undefined, null, booleans, numbers and strings. *)
Definition is_primitive (v : value) : bool :=
  match v with
  | VArr _ | VObj _ => false
  | _ => true
  end.

(** The notice in the [finally] block of [fetchUser]. *)
Definition completion_notice : value := VStr "User fetch operation completed".

Definition is_completion_notice (e : event) : bool :=
  match e with
  | Wrote log_stream [VStr text] => String.eqb text "User fetch operation completed"
  | _ => false
  end.

Definition is_error_write (e : event) : bool :=
  match e with
  | Wrote error_stream _ => true
  | _ => false
  end.

(** ** The failure kinds of the specification *)

(** [v.key] where the read cannot throw: the own property of a plain
    object, [undefined] on the other truthy values. *)
Definition read (v : value) (key : string) : value :=
  match v with
  | VObj props => lookup key props
  | _ => VUndefined
  end.

(** The three kinds of failure the specification names, each with what it
    carries: the status code and the response body, the outbound request,
    or a message. *)
Inductive failure_kind : Type :=
| RemoteResponded (status body : value)
| NoResponse (request : value)
| RequestConstruction (message : value).

(** The classification in the specification's words: a response is present,
    else a request is present, else neither. *)
Definition classify (error : object) : failure_kind :=
  if truthy (lookup "response" error) then
    RemoteResponded (read (lookup "response" error) "status")
                    (read (lookup "response" error) "data")
  else if truthy (lookup "request" error) then
    NoResponse (lookup "request" error)
  else
    RequestConstruction (lookup "message" error).

Definition carried (k : failure_kind) : list value :=
  match k with
  | RemoteResponded status body => [status; body]
  | NoResponse request => [request]
  | RequestConstruction message => [message]
  end.

(** A console entry reports a kind when it is a label followed by exactly
    what the kind carries. *)
Definition reports (k : failure_kind) (args : list value) : Prop :=
  exists label : value, args = label :: carried k.

(** The label [fetchPosts] gives each kind. *)
Definition label_of (k : failure_kind) : value :=
  match k with
  | RemoteResponded _ _ => VStr "Server Error:"
  | NoResponse _ => VStr "Network Error:"
  | RequestConstruction _ => VStr "Error:"
  end.

(** The read operations of the client. *)
Definition is_read (op : operation) : bool :=
  match op with
  | CreatePost _ => false
  | _ => true
  end.

(** ** Two calls in flight on the event loop *)

(** An asynchronous function runs without interruption until it awaits; the
    rest of its body runs, again without interruption, when the awaited call
    has settled.  Two calls issued together (as by [Promise.all]) therefore
    interleave at their awaits only, in the order the network settles them. *)

Module EventLoop.

(** Run a body up to its next await or its completion. *)
Fixpoint advance {A : Type} (p : async A) : list event * async A :=
  match p with
  | Console m args k =>
      let (evs, p') := advance k in (Wrote m args :: evs, p')
  | _ => ([], p)
  end.

(** A body that stopped at an await has handed its call to the transport. *)
Definition sent {A : Type} (cfg : Axios.defaults) (p : async A) : list event :=
  match p with
  | Await c _ => [Sent cfg c]
  | _ => []
  end.

Definition proceed {A : Type} (cfg : Axios.defaults) (p : async A)
  : list event * async A :=
  let (evs, p') := advance p in ((evs ++ sent cfg p')%list, p').

(** The awaited call of a suspended body settles; a body that awaits nothing
    is left alone. *)
Definition resume {A : Type} (cfg : Axios.defaults) (p : async A) (o : Axios.settled)
  : list event * async A :=
  match p with
  | Await _ k =>
      let (evs, p') := proceed cfg (k o) in (Settled o :: evs, p')
  | _ => ([], p)
  end.

(** The two calls, the events so far and the configuration of the one
    instance they share. *)
Record loop : Type := {
  left : async value;
  right : async value;
  trace : list event;
  config : Axios.defaults
}.

(** The network settles the pending call of the one or of the other. *)
Inductive tick : Type :=
| to_left (o : Axios.settled)
| to_right (o : Axios.settled).

(** The caller issues both calls, one after the other, before anything
    settles. *)
Definition start (cfg : Axios.defaults) (p q : async value) : loop :=
  let (evs1, p') := proceed cfg p in
  let (evs2, q') := proceed cfg q in
  {| left := p'; right := q'; trace := (evs1 ++ evs2)%list; config := cfg |}.

Definition step (l : loop) (t : tick) : loop :=
  match t with
  | to_left o =>
      let (evs, p') := resume (config l) (left l) o in
      {| left := p'; right := right l;
         trace := (trace l ++ evs)%list; config := config l |}
  | to_right o =>
      let (evs, q') := resume (config l) (right l) o in
      {| left := left l; right := q';
         trace := (trace l ++ evs)%list; config := config l |}
  end.

Definition exec (l : loop) (schedule : list tick) : loop :=
  fold_left step schedule l.

(** How a call has settled so far: not yet, with a value, or with a thrown
    value. *)
Definition result (p : async value) : option (completion value) :=
  match p with
  | Return a => Some (Normal a)
  | Throw e => Some (Abrupt e)
  | _ => None
  end.

End EventLoop.

(** ** What a run of an operation is compared with *)

Section Observations.

Variable world : Type.
Variable dispatch : Axios.defaults -> Axios.call -> world -> Axios.settled * world.

(** The state after the transport has settled one call. *)
Definition after (s : state world) (c : Axios.call) : state world :=
  {| instance := instance s; remote := snd (dispatch (instance s) c (remote s)) |}.

Definition answer (s : state world) (c : Axios.call) : Axios.settled :=
  fst (dispatch (instance s) c (remote s)).

(** The arguments of the [console.error] in the [catch] block of each
    operation, for a caught error object.  The block of [fetchPostById] and
    of [fetchUser] gets as far as [console.error] only when the id has a
    text. *)
Definition failure_entry (op : operation) (error : object) : list value :=
  match op with
  | FetchPosts _ => label_of (classify error) :: carried (classify error)
  | FetchPostById id =>
      match ToString id with
      | Some text => [VStr ("Error fetching post with ID " ++ text ++ ":"); VObj error]
      | None => []
      end
  | FetchUser id =>
      match ToString id with
      | Some text => [VStr ("Error fetching user with ID " ++ text ++ ":"); VObj error]
      | None => []
      end
  | CreatePost _ => [VStr "Error creating post:"; VObj error]
  end.

(** The entries of the [finally] block, which only [fetchUser] has. *)
Definition epilogue (op : operation) : list event :=
  match op with
  | FetchUser _ => [Wrote log_stream [completion_notice]]
  | _ => []
  end.

End Observations.

Arguments after {world} dispatch s c.
Arguments answer {world} dispatch s c.

(** ** Two transports to run the operations on *)

Module Demo.

(** A remote service that answers a GET with status 404 and anything else
    with the request body echoed back. *)
Definition not_found : object :=
  [("message", VStr "Request failed with status code 404");
   ("request", VObj [("readyState", VNum 4)]);
   ("response", VObj [("status", VNum 404); ("data", VObj [])])].

Definition service (d : Axios.defaults) (c : Axios.call) (w : unit)
  : Axios.settled * unit :=
  match c with
  | Axios.get _ _ => (Axios.Rejected not_found, w)
  | Axios.post _ data => (Axios.Fulfilled [("data", data); ("status", VNum 201)], w)
  end.

(** A remote service that serves every call: a GET gets an empty list, a
    POST its body back. *)
Definition healthy (d : Axios.defaults) (c : Axios.call) (w : unit)
  : Axios.settled * unit :=
  match c with
  | Axios.get _ _ => (Axios.Fulfilled [("data", VArr []); ("status", VNum 200)], w)
  | Axios.post _ data => (Axios.Fulfilled [("data", data); ("status", VNum 201)], w)
  end.

(** A network that is down: the request leaves, no response arrives. *)
Definition offline (d : Axios.defaults) (c : Axios.call) (w : unit)
  : Axios.settled * unit :=
  (Axios.Rejected [("message", VStr "Network Error");
                   ("request", VObj [("readyState", VNum 4)])], w).

Definition start : state unit := loaded tt.

End Demo.

(** ** The two blocks of [fetchPosts] *)

(** The [try] block of [fetchPosts], for the limit its parameter is bound
    to. *)
Definition fetchPosts_try (limit : value) : async value :=
  response <- await_settled
                (Axios.get "/posts" (VObj [("params", VObj [("_limit", limit)])])) ;;
  member response "data".

(** The [catch] block of [fetchPosts], for the value it caught. *)
Definition fetchPosts_catch (error : value) : async value :=
  r <- member error "response" ;;
  (if truthy r then
     r1 <- member error "response" ;;
     status <- member r1 "status" ;;
     r2 <- member error "response" ;;
     data <- member r2 "data" ;;
     console_error [VStr "Server Error:"; status; data]
   else
     q <- member error "request" ;;
     if truthy q then
       q1 <- member error "request" ;;
       console_error [VStr "Network Error:"; q1]
     else
       message <- member error "message" ;;
       console_error [VStr "Error:"; message]) ;;
  Throw error.

(** ** An operation on the event loop *)

(** What is left of an operation once its call has settled: it has returned
    the [data] of the response or thrown the error. *)
Definition finished (o : Axios.settled) : async value :=
  match o with
  | Axios.Fulfilled response => Return (lookup "data" response)
  | Axios.Rejected error => Throw (VObj error)
  end.

(** The console writes of an operation after its call has settled. *)
Definition aftermath (op : operation) (o : Axios.settled) : list event :=
  match o with
  | Axios.Fulfilled _ => epilogue op
  | Axios.Rejected error => Wrote error_stream (failure_entry op error) :: epilogue op
  end.

(** A call of a pair is either the operation, suspended at its await, or has
    settled. *)
Definition suspended_or_done (op : operation) (p : async value) : Prop :=
  (request_of op <> None /\ p = perform op) \/ EventLoop.result p <> None.

(** ** A transport for the edge cases *)

Module Edge.

(** A remote service that answers every call with 204 and no body: the
    response has no [data] property. *)
Definition no_content (d : Axios.defaults) (c : Axios.call) (w : unit)
  : Axios.settled * unit :=
  (Axios.Fulfilled [("status", VNum 204)], w).

End Edge.

(** * Properties *)

Lemma member_truthy (v : value) (key : string) :
  truthy v = true -> member v key = Return (read v key).
Proof.
  destruct v; simpl; intros H; try discriminate; reflexivity.
Qed.

Lemma truthy_not_nullish (v : value) : truthy v = true -> nullish v = false.
Proof. destruct v; simpl; intros H; try discriminate; reflexivity. Qed.

Lemma calls_app (evs1 evs2 : list event) :
  calls (evs1 ++ evs2) = (calls evs1 ++ calls evs2)%list.
Proof. unfold calls. apply flat_map_app. Qed.

(** Every primitive has a text; the text of a string is the string. *)
Lemma primitive_has_text (v : value) :
  is_primitive v = true -> exists text : string, ToString v = Some text.
Proof.
  destruct v as [| | [|] | n | t | items | props]; intros H;
    try discriminate; eexists; reflexivity.
Qed.

Section Sequential.

Variable world : Type.
Variable dispatch : Axios.defaults -> Axios.call -> world -> Axios.settled * world.

(** The shape the four bodies share: await one call in a [try] block and
    return [response.data]; the [catch] block runs on a rejection. *)
Lemma run_try_await (c : Axios.call) (handler : value -> async value) (s : state world) :
  run dispatch
    (try_catch (response <- await_settled c ;; member response "data") handler) s =
  match answer dispatch s c with
  | Axios.Fulfilled response =>
      (Normal (lookup "data" response),
       [Sent (instance s) c; Settled (answer dispatch s c)], after dispatch s c)
  | Axios.Rejected error =>
      let '(r, evs, s') := run dispatch (handler (VObj error)) (after dispatch s c) in
      (r, Sent (instance s) c :: Settled (answer dispatch s c) :: evs, s')
  end.
Proof.
  unfold after, answer. cbn -[lookup].
  destruct (dispatch _ _ _) as [[response | error] w]; reflexivity.
Qed.

(** The [catch] block of [fetchPosts] on an error object: one entry, the
    label of the error's kind followed by what the kind carries, then the
    caught value is thrown. *)
Lemma run_fetchPosts (limit : value) (s : state world) :
  run dispatch (fetchPosts limit) s =
  let c := Axios.get "/posts"
             (VObj [("params", VObj [("_limit", default_parameter limit (VNum 10))])]) in
  match answer dispatch s c with
  | Axios.Fulfilled response =>
      (Normal (lookup "data" response),
       [Sent (instance s) c; Settled (answer dispatch s c)], after dispatch s c)
  | Axios.Rejected error =>
      (Abrupt (VObj error),
       [Sent (instance s) c; Settled (answer dispatch s c);
        Wrote error_stream (label_of (classify error) :: carried (classify error))],
       after dispatch s c)
  end.
Proof.
  unfold fetchPosts. cbv zeta. rewrite run_try_await.
  destruct (answer dispatch s _) as [response | error]; [reflexivity |].
  cbn -[lookup classify label_of carried]. unfold classify.
  destruct (truthy (lookup "response" error)) eqn:Hr.
  - rewrite !(member_truthy _ _ Hr). reflexivity.
  - destruct (truthy (lookup "request" error)); reflexivity.
Qed.

Lemma run_createPost (postData : value) (s : state world) :
  run dispatch (createPost postData) s =
  let c := Axios.post "/posts" postData in
  match answer dispatch s c with
  | Axios.Fulfilled response =>
      (Normal (lookup "data" response),
       [Sent (instance s) c; Settled (answer dispatch s c)], after dispatch s c)
  | Axios.Rejected error =>
      (Abrupt (VObj error),
       [Sent (instance s) c; Settled (answer dispatch s c);
        Wrote error_stream [VStr "Error creating post:"; VObj error]],
       after dispatch s c)
  end.
Proof.
  unfold createPost. cbv zeta. rewrite run_try_await.
  destruct (answer dispatch s _) as [response | error]; reflexivity.
Qed.

(** [try]/[finally] around a body whose run is known. *)
Lemma run_try_finally_notice (body : async value) (s : state world) :
  run dispatch (try_finally body (console_log [completion_notice])) s =
  let '(r, evs, s') := run dispatch body s in
  (r, (evs ++ [Wrote log_stream [completion_notice]])%list, s').
Proof.
  revert s. induction body as [a | e | c k IH | m args k IH]; intros s; cbn [try_finally run].
  - reflexivity.
  - reflexivity.
  - destruct (dispatch _ _ _) as [o w]. rewrite IH.
    destruct (run dispatch (k o) _) as [[r evs] s']. reflexivity.
  - rewrite IH. destruct (run dispatch k s) as [[r evs] s']. reflexivity.
Qed.

(** One equation for the run of every operation.  When the template
    literal of the path throws, nothing is sent and nothing is written to the
    error stream: the [catch] block throws at its own template literal.
    Otherwise the call is handed to the transport once; a fulfilled call
    returns the [data] of the response, a rejected call writes the failure
    entry and throws the error.  The epilogue follows in every case. *)
Lemma run_perform (op : operation) (s : state world) :
  run dispatch (perform op) s =
  match request_of op with
  | None => (Abrupt cannot_convert, epilogue op, s)
  | Some c =>
      match answer dispatch s c with
      | Axios.Fulfilled response =>
          (Normal (lookup "data" response),
           Sent (instance s) c :: Settled (answer dispatch s c) :: epilogue op,
           after dispatch s c)
      | Axios.Rejected error =>
          (Abrupt (VObj error),
           Sent (instance s) c :: Settled (answer dispatch s c)
             :: Wrote error_stream (failure_entry op error) :: epilogue op,
           after dispatch s c)
      end
  end.
Proof.
  destruct op as [limit | id | id | postData];
    cbn [perform request_of failure_entry epilogue].
  - rewrite run_fetchPosts. cbv zeta. destruct (answer dispatch s _); reflexivity.
  - unfold fetchPostById, substitution.
    destruct (ToString id) as [text |]; cbn [option_map bind try_catch].
    + rewrite run_try_await. destruct (answer dispatch s _); reflexivity.
    + reflexivity.
  - unfold fetchUser, substitution. rewrite run_try_finally_notice.
    destruct (ToString id) as [text |]; cbn [option_map bind try_catch].
    + rewrite run_try_await. destruct (answer dispatch s _); reflexivity.
    + reflexivity.
  - rewrite run_createPost. cbv zeta. destruct (answer dispatch s _); reflexivity.
Qed.

Lemma outcome_perform (op : operation) (s : state world) :
  outcome dispatch (perform op) s =
  match request_of op with
  | None => Abrupt cannot_convert
  | Some c =>
      match answer dispatch s c with
      | Axios.Fulfilled response => Normal (lookup "data" response)
      | Axios.Rejected error => Abrupt (VObj error)
      end
  end.
Proof.
  unfold outcome. rewrite run_perform.
  destruct (request_of op) as [c |]; [| reflexivity].
  destruct (answer dispatch s c); reflexivity.
Qed.

Lemma events_perform (op : operation) (s : state world) :
  events dispatch (perform op) s =
  match request_of op with
  | None => epilogue op
  | Some c =>
      Sent (instance s) c :: Settled (answer dispatch s c) ::
        match answer dispatch s c with
        | Axios.Fulfilled _ => epilogue op
        | Axios.Rejected error => Wrote error_stream (failure_entry op error) :: epilogue op
        end
  end.
Proof.
  unfold events. rewrite run_perform.
  destruct (request_of op) as [c |]; [| reflexivity].
  destruct (answer dispatch s c); reflexivity.
Qed.

Lemma calls_epilogue (op : operation) : calls (epilogue op) = [].
Proof. destruct op; reflexivity. Qed.

Lemma calls_perform (op : operation) (s : state world) :
  calls (events dispatch (perform op) s) = requests op.
Proof.
  rewrite events_perform. unfold requests.
  destruct (request_of op) as [c |]; [| apply calls_epilogue].
  cbn [calls flat_map app].
  destruct (answer dispatch s c); cbn [flat_map app]; fold (calls (epilogue op));
    rewrite calls_epilogue; reflexivity.
Qed.

Lemma calls_fetchPosts (limit : value) (s : state world) :
  calls (events dispatch (fetchPosts limit) s)
  = [Axios.get "/posts"
       (VObj [("params", VObj [("_limit", default_parameter limit (VNum 10))])])].
Proof.
  unfold events. rewrite run_fetchPosts. cbv zeta.
  destruct (answer dispatch s _); reflexivity.
Qed.

Lemma errors_epilogue (op : operation) :
  filter is_error_write (epilogue op) = [].
Proof. destruct op; reflexivity. Qed.

Lemma error_writes_perform (op : operation) (s : state world) :
  filter is_error_write (events dispatch (perform op) s) =
  match request_of op with
  | None => []
  | Some c =>
      match answer dispatch s c with
      | Axios.Fulfilled _ => []
      | Axios.Rejected error => [Wrote error_stream (failure_entry op error)]
      end
  end.
Proof.
  rewrite events_perform.
  destruct (request_of op) as [c |]; [| apply errors_epilogue].
  cbn [filter is_error_write].
  destruct (answer dispatch s c); cbn [filter is_error_write];
    rewrite errors_epilogue; reflexivity.
Qed.

(** The request of an operation on an id is there exactly when the id has a
    text. *)
Lemma request_of_id (op : operation) (c : Axios.call) :
  request_of op = Some c ->
  match op with
  | FetchPostById id =>
      exists text : string,
        ToString id = Some text /\ c = Axios.get ("/posts/" ++ text) VUndefined
  | FetchUser id =>
      exists text : string,
        ToString id = Some text /\ c = Axios.get ("/users/" ++ text) VUndefined
  | _ => True
  end.
Proof.
  destruct op as [limit | id | id | postData]; cbn [request_of]; intros H; try exact I;
    destruct (ToString id) as [text |]; try discriminate;
    injection H as <-; exists text; split; reflexivity.
Qed.

(** C1, as amended.  Of the four operations only [fetchPosts] classifies a
    failure of the transport three ways before throwing it again: it writes
    the label of the kind (response present, else request present, else
    neither) followed by exactly what the kind carries.  [fetchPostById] and
    [fetchUser], like [createPost], write one and the same entry for every
    kind of failure of the transport, a prefix naming the operation followed
    by the caught value itself.  Every operation then throws the caught
    value.  A failure of the operation's own, the template literal of an id
    that has no text, is neither classified nor written: no call is made and
    the TypeError is thrown. *)
Theorem classification_only_in_fetchPosts (op : operation) (s : state world) :
  (forall (c : Axios.call) (error : object),
     request_of op = Some c ->
     answer dispatch s c = Axios.Rejected error ->
     exists entry : list value,
       filter is_error_write (events dispatch (perform op) s)
         = [Wrote error_stream entry]
       /\ match op with
          | FetchPosts _ =>
              reports (classify error) entry
              /\ entry = label_of (classify error) :: carried (classify error)
          | FetchPostById id =>
              exists text : string,
                ToString id = Some text
                /\ entry = [VStr ("Error fetching post with ID " ++ text ++ ":");
                            VObj error]
          | FetchUser id =>
              exists text : string,
                ToString id = Some text
                /\ entry = [VStr ("Error fetching user with ID " ++ text ++ ":");
                            VObj error]
          | CreatePost _ => entry = [VStr "Error creating post:"; VObj error]
          end
       /\ outcome dispatch (perform op) s = Abrupt (VObj error))
  /\ (request_of op = None ->
      filter is_error_write (events dispatch (perform op) s) = []
      /\ calls (events dispatch (perform op) s) = []
      /\ outcome dispatch (perform op) s = Abrupt cannot_convert).
Proof.
  rewrite error_writes_perform, outcome_perform, calls_perform. unfold requests.
  split.
  - intros c error Hreq Hrej. rewrite Hreq, Hrej.
    exists (failure_entry op error). split; [reflexivity |]. split; [| reflexivity].
    pose proof (request_of_id op c Hreq) as Hid.
    destruct op as [limit | id | id | postData]; cbn [failure_entry].
    + split; [exists (label_of (classify error)) |]; reflexivity.
    + destruct Hid as (text & Htext & _). exists text. rewrite Htext. split; reflexivity.
    + destruct Hid as (text & Htext & _). exists text. rewrite Htext. split; reflexivity.
    + reflexivity.
  - intros Hnone. rewrite Hnone. repeat split.
Qed.

(** C2.  Whatever the operation, when the transport rejects its call the
    run hands exactly one call to the transport, then writes one entry to the
    error stream, and ends by throwing the very error object the transport
    rejected with; only the completion notice of [fetchUser] may follow the
    entry. *)
Theorem failure_logged_then_rethrown
    (op : operation) (s : state world) (c : Axios.call) (error : object) :
  request_of op = Some c ->
  answer dispatch s c = Axios.Rejected error ->
  outcome dispatch (perform op) s = Abrupt (VObj error)
  /\ calls (events dispatch (perform op) s) = [c]
  /\ exists entry : list value,
       events dispatch (perform op) s
       = ([Sent (instance s) c; Settled (Axios.Rejected error);
           Wrote error_stream entry] ++ epilogue op)%list.
Proof.
  intros Hreq Hrej. split; [| split].
  - rewrite outcome_perform, Hreq, Hrej. reflexivity.
  - rewrite calls_perform. unfold requests. rewrite Hreq. reflexivity.
  - exists (failure_entry op error).
    rewrite events_perform, Hreq, Hrej. reflexivity.
Qed.

(** C3.  For a number N > 0, [fetchPosts(N)] hands the transport exactly one
    call, a GET of /posts whose [params] are [{ _limit: N }]; with the
    argument omitted the [_limit] is 10; and when the call is fulfilled the
    operation returns the [data] of the response. *)
Theorem fetchPosts_requests_limit (N : float) (s : state world) :
  PrimFloat.ltb 0 N = true ->
  calls (events dispatch (fetchPosts (VNum N)) s)
    = [Axios.get "/posts" (VObj [("params", VObj [("_limit", VNum N)])])]
  /\ calls (events dispatch (fetchPosts VUndefined) s)
       = [Axios.get "/posts" (VObj [("params", VObj [("_limit", VNum 10)])])]
  /\ forall response : object,
       answer dispatch s (Axios.get "/posts" (VObj [("params", VObj [("_limit", VNum N)])]))
         = Axios.Fulfilled response ->
       outcome dispatch (fetchPosts (VNum N)) s = Normal (lookup "data" response).
Proof.
  intros _. split; [| split].
  - apply calls_fetchPosts.
  - apply calls_fetchPosts.
  - intros response Hok. unfold outcome. rewrite run_fetchPosts.
    cbn [default_parameter]. cbv zeta. rewrite Hok. reflexivity.
Qed.

(** C4.  Whatever the id and however the attempt ends, a run of [fetchUser]
    writes the completion notice exactly once, as its last event: after the
    call has settled and after the entry of the [catch] block if the
    transport rejected it, and as the only event when the id has no text and
    the attempt fails before any call. *)
Theorem fetchUser_completion_notice_once (id : value) (s : state world) :
  length (filter is_completion_notice (events dispatch (fetchUser id) s)) = 1
  /\ exists before : list event,
       events dispatch (fetchUser id) s
         = (before ++ [Wrote log_stream [completion_notice]])%list
       /\ filter is_completion_notice before = []
       /\ match request_of (FetchUser id) with
          | Some c => In (Settled (answer dispatch s c)) before
          | None => before = []
          end.
Proof.
  change (fetchUser id) with (perform (FetchUser id)).
  rewrite events_perform.
  destruct (request_of (FetchUser id)) as [c |]; cbn [epilogue].
  - destruct (answer dispatch s c) as [response | error] eqn:Ho.
    + split; [reflexivity |].
      eexists [_; _]. split; [reflexivity |]. split; [| right; left]; reflexivity.
    + split; [reflexivity |].
      eexists [_; _; _]. split; [reflexivity |]. split; [| right; left]; reflexivity.
  - split; [reflexivity |].
    exists []. repeat split.
Qed.

(** C5.  [createPost(postData)] hands the transport exactly one call, a POST
    of /posts whose body is [postData] itself, and when the call is fulfilled
    it returns the [data] of the response as it is. *)
Theorem createPost_passes_through (postData : value) (s : state world) :
  calls (events dispatch (createPost postData) s) = [Axios.post "/posts" postData]
  /\ forall response : object,
       answer dispatch s (Axios.post "/posts" postData) = Axios.Fulfilled response ->
       outcome dispatch (createPost postData) s = Normal (lookup "data" response).
Proof.
  unfold events, outcome. rewrite run_createPost. cbv zeta. split.
  - destruct (answer dispatch s _); reflexivity.
  - intros response Hok. rewrite Hok. reflexivity.
Qed.


(** C8, as amended.  A run of any operation on any input ends in exactly one
    of three ways, decided by the input and by the transport.  The call is
    made and fulfilled: the operation returns the [data] of the response and
    writes nothing to the error stream.  The call is made and rejected: the
    operation writes its one entry, classified three ways by [fetchPosts]
    and generic in the other three, and throws the error of the transport.
    No call is made, because the operation builds its path from an id that
    has no text: it throws the TypeError and writes nothing to the error
    stream. *)
Theorem returns_payload_or_rethrows (op : operation) (s : state world) :
  match request_of op with
  | Some c =>
      calls (events dispatch (perform op) s) = [c]
      /\ match answer dispatch s c with
         | Axios.Fulfilled response =>
             outcome dispatch (perform op) s = Normal (lookup "data" response)
             /\ filter is_error_write (events dispatch (perform op) s) = []
         | Axios.Rejected error =>
             outcome dispatch (perform op) s = Abrupt (VObj error)
             /\ filter is_error_write (events dispatch (perform op) s)
                = [Wrote error_stream (failure_entry op error)]
             /\ match op with
                | FetchPosts _ => reports (classify error) (failure_entry op error)
                | _ =>
                    exists prefix : string,
                      failure_entry op error = [VStr prefix; VObj error]
                end
         end
  | None =>
      (exists id : value,
         (op = FetchPostById id \/ op = FetchUser id) /\ ToString id = None)
      /\ calls (events dispatch (perform op) s) = []
      /\ outcome dispatch (perform op) s = Abrupt cannot_convert
      /\ filter is_error_write (events dispatch (perform op) s) = []
  end.
Proof.
  rewrite error_writes_perform, outcome_perform, calls_perform. unfold requests.
  destruct (request_of op) as [c |] eqn:Hreq.
  - split; [reflexivity |].
    destruct (answer dispatch s c) as [response | error]; [split; reflexivity |].
    split; [reflexivity |]. split; [reflexivity |].
    pose proof (request_of_id op c Hreq) as Hid.
    destruct op as [limit | id | id | postData]; cbn [failure_entry].
    + exists (label_of (classify error)). reflexivity.
    + destruct Hid as (text & Htext & _). rewrite Htext. eexists. reflexivity.
    + destruct Hid as (text & Htext & _). rewrite Htext. eexists. reflexivity.
    + eexists. reflexivity.
  - split; [| repeat split].
    destruct op as [limit | id | id | postData]; cbn [request_of] in Hreq;
      try discriminate; exists id;
      (split; [auto | destruct (ToString id); [discriminate | reflexivity]]).
Qed.

(** C9, as amended.  No operation checks its argument before the call goes
    out.  Every limit other than [undefined], be it zero, negative, a
    fraction or no number at all, reaches [_limit] as it is.  Every id that
    has a text, which every primitive has and every number whether an integer
    or not, is spliced into the path by that text.  An id that has no text
    stops the operation at its template literal: no call is made and the
    TypeError of the conversion is thrown.  Apart from that TypeError an
    operation throws only what the transport rejected with. *)
Theorem inputs_are_not_validated
    (limit id : value) (op : operation) (s : state world) :
  limit <> VUndefined ->
  calls (events dispatch (fetchPosts limit) s)
    = [Axios.get "/posts" (VObj [("params", VObj [("_limit", limit)])])]
  /\ match ToString id with
     | Some text =>
         calls (events dispatch (fetchPostById id) s)
           = [Axios.get ("/posts/" ++ text) VUndefined]
         /\ calls (events dispatch (fetchUser id) s)
              = [Axios.get ("/users/" ++ text) VUndefined]
     | None =>
         (calls (events dispatch (fetchPostById id) s) = []
          /\ outcome dispatch (fetchPostById id) s = Abrupt cannot_convert)
         /\ (calls (events dispatch (fetchUser id) s) = []
             /\ outcome dispatch (fetchUser id) s = Abrupt cannot_convert)
     end
  /\ (is_primitive id = true -> exists text : string, ToString id = Some text)
  /\ (forall n : float, ToString (VNum n) = Some (NumberToString n))
  /\ forall failure : value,
       outcome dispatch (perform op) s = Abrupt failure ->
       (exists (c : Axios.call) (error : object),
          request_of op = Some c
          /\ answer dispatch s c = Axios.Rejected error
          /\ failure = VObj error)
       \/ (request_of op = None /\ failure = cannot_convert).
Proof.
  intros Hlimit. split; [| split; [| split; [| split]]].
  - rewrite calls_fetchPosts.
    destruct limit; try reflexivity. contradiction.
  - pose proof (calls_perform (FetchPostById id) s) as Hposts.
    pose proof (calls_perform (FetchUser id) s) as Husers.
    pose proof (outcome_perform (FetchPostById id) s) as Hpost.
    pose proof (outcome_perform (FetchUser id) s) as Huser.
    unfold requests in *. cbn [perform request_of] in *.
    destruct (ToString id) as [text |]; cbn [option_map] in *; auto.
  - apply primitive_has_text.
  - reflexivity.
  - intros failure. rewrite outcome_perform.
    destruct (request_of op) as [c |].
    + destruct (answer dispatch s c) as [response | error] eqn:Ho;
        intros H; [discriminate |].
      left. exists c, error. repeat split; congruence.
    + intros H. right. split; [reflexivity | congruence].
Qed.

End Sequential.

(** * Two calls at once *)

Lemma resume_done (cfg : Axios.defaults) (p : async value) (o : Axios.settled) :
  EventLoop.result p <> None -> EventLoop.resume cfg p o = ([], p).
Proof.
  destruct p; cbn [EventLoop.result EventLoop.resume]; intros Hdone;
    try reflexivity; contradiction.
Qed.

Lemma result_finished (o : Axios.settled) : EventLoop.result (finished o) <> None.
Proof. destruct o; discriminate. Qed.

Module EventLoopFacts.
Import EventLoop.

(** An operation started on the event loop: it hands its call to the
    transport and awaits, or, when its id has no text, it is done at once
    and has made no call. *)
Lemma proceed_perform (cfg : Axios.defaults) (op : operation) :
  proceed cfg (perform op)
  = match request_of op with
    | Some c => ([Sent cfg c], perform op)
    | None => (epilogue op, Throw cannot_convert)
    end.
Proof.
  destruct op as [limit | id | id | postData]; cbn [perform request_of epilogue];
    try reflexivity.
  - unfold fetchPostById, substitution. destruct (ToString id); reflexivity.
  - unfold fetchUser, substitution. destruct (ToString id); reflexivity.
Qed.

(** An operation resumed with the answer to its call: it writes what its
    [catch] and [finally] blocks write and is done. *)
Lemma resume_operation (cfg : Axios.defaults) (op : operation) (o : Axios.settled) :
  request_of op <> None ->
  resume cfg (perform op) o = (Settled o :: aftermath op o, finished o).
Proof.
  destruct op as [limit | id | id | postData], o as [response | error];
    cbn [perform request_of aftermath failure_entry]; intros Hreq;
    try reflexivity;
    try (unfold fetchPostById, fetchUser, substitution;
         destruct (ToString id); [reflexivity | contradiction]).
  cbn -[lookup classify label_of carried]. unfold classify.
  destruct (truthy (lookup "response" error)) eqn:Hr.
  - rewrite !(member_truthy _ _ Hr). reflexivity.
  - destruct (truthy (lookup "request" error)); reflexivity.
Qed.

Lemma calls_aftermath (op : operation) (o : Axios.settled) :
  calls (aftermath op o) = [].
Proof. destruct op, o; reflexivity. Qed.

(** A tick on a call of the pair makes no call, and leaves the call
    suspended or done. *)
Lemma resume_suspended_or_done
    (cfg : Axios.defaults) (op : operation) (p : async value) (o : Axios.settled) :
  suspended_or_done op p ->
  suspended_or_done op (snd (resume cfg p o))
  /\ calls (fst (resume cfg p o)) = [].
Proof.
  intros [[Hreq ->] | Hdone].
  - rewrite (resume_operation cfg op o Hreq). cbn [fst snd calls flat_map app].
    fold (calls (aftermath op o)). rewrite calls_aftermath.
    split; [right; apply result_finished | reflexivity].
  - rewrite (resume_done cfg p o Hdone).
    split; [right; exact Hdone | reflexivity].
Qed.

Lemma step_keeps_calls (op1 op2 : operation) (l : loop) (t : tick) :
  suspended_or_done op1 (left l) ->
  suspended_or_done op2 (right l) ->
  suspended_or_done op1 (left (step l t))
  /\ suspended_or_done op2 (right (step l t))
  /\ calls (trace (step l t)) = calls (trace l).
Proof.
  intros Hl Hr. destruct t as [o | o]; cbn [step].
  - destruct (resume_suspended_or_done (config l) op1 (left l) o Hl) as [Hl' Hcalls].
    destruct (resume (config l) (left l) o) as [evs p']; cbn [fst snd] in *.
    cbn [left right trace]. rewrite calls_app, Hcalls, app_nil_r. auto.
  - destruct (resume_suspended_or_done (config l) op2 (right l) o Hr) as [Hr' Hcalls].
    destruct (resume (config l) (right l) o) as [evs q']; cbn [fst snd] in *.
    cbn [left right trace]. rewrite calls_app, Hcalls, app_nil_r. auto.
Qed.

Lemma exec_keeps_calls (op1 op2 : operation) (schedule : list tick) :
  forall l : loop,
    suspended_or_done op1 (left l) ->
    suspended_or_done op2 (right l) ->
    calls (trace (exec l schedule)) = calls (trace l).
Proof.
  induction schedule as [| t schedule IH]; intros l Hl Hr; cbn [exec fold_left].
  - reflexivity.
  - fold (exec (step l t) schedule).
    destruct (step_keeps_calls op1 op2 l t Hl Hr) as (Hl' & Hr' & Hcalls).
    rewrite (IH _ Hl' Hr'). exact Hcalls.
Qed.

(** Two operations just issued: each is suspended or done, and the calls so
    far are the one of each that makes one. *)
Lemma start_calls (cfg : Axios.defaults) (op1 op2 : operation) :
  suspended_or_done op1 (left (start cfg (perform op1) (perform op2)))
  /\ suspended_or_done op2 (right (start cfg (perform op1) (perform op2)))
  /\ calls (trace (start cfg (perform op1) (perform op2)))
     = (requests op1 ++ requests op2)%list.
Proof.
  unfold start, requests. rewrite !proceed_perform.
  destruct (request_of op1) as [c1 |] eqn:H1, (request_of op2) as [c2 |] eqn:H2;
    cbn [left right trace]; rewrite calls_app; cbn [calls flat_map app];
    rewrite ?calls_epilogue; fold (calls (epilogue op1)); fold (calls (epilogue op2));
    rewrite ?calls_epilogue;
    (split; [| split; [| reflexivity]]);
    first [ left; split; [congruence | reflexivity] | right; discriminate ].
Qed.

(** X6.  Two operations issued together hand the transport one call each,
    none for an operation whose id has no text, all before anything settles,
    and no schedule of answers, however long, makes either of them call
    again. *)
Theorem each_call_is_sent_once
    (cfg : Axios.defaults) (op1 op2 : operation) (schedule : list tick) :
  calls (trace (exec (start cfg (perform op1) (perform op2)) schedule))
  = (requests op1 ++ requests op2)%list
  /\ calls (trace (start cfg (perform op1) (perform op2)))
     = (requests op1 ++ requests op2)%list.
Proof.
  destruct (start_calls cfg op1 op2) as (Hl & Hr & Hcalls).
  split; [| exact Hcalls].
  rewrite (exec_keeps_calls op1 op2 schedule _ Hl Hr). exact Hcalls.
Qed.

End EventLoopFacts.

(** * Further properties of the operations *)

(** [fetchPosts] is its [try] block guarded by its [catch] block. *)
Lemma fetchPosts_blocks (limit : value) :
  fetchPosts limit
  = try_catch (fetchPosts_try (default_parameter limit (VNum 10))) fetchPosts_catch.
Proof. reflexivity. Qed.

Lemma lookup_absent (key : string) (o : object) :
  (forall v : value, ~ In (key, v) o) -> lookup key o = VUndefined.
Proof.
  induction o as [| [k v] o IH]; intros Habsent; cbn [lookup].
  - reflexivity.
  - destruct (String.eqb_spec k key) as [-> | Hne].
    + exfalso. apply (Habsent v). left. reflexivity.
    + apply IH. intros v' Hin. apply (Habsent v'). right. exact Hin.
Qed.

Section Callers.

Variable world : Type.
Variable dispatch : Axios.defaults -> Axios.call -> world -> Axios.settled * world.

(** X1.  An operation writes to the error stream only when the transport
    rejected its call.  When the call is fulfilled the run consists of the
    call and its settling, followed by nothing but the completion notice of
    [fetchUser]: the other three operations write nothing at all. *)
Theorem fulfilled_call_is_silent (op : operation) (s : state world) :
  (forall (c : Axios.call) (response : object),
     request_of op = Some c ->
     answer dispatch s c = Axios.Fulfilled response ->
     events dispatch (perform op) s
     = ([Sent (instance s) c; Settled (Axios.Fulfilled response)]
        ++ match op with
           | FetchUser _ => [Wrote log_stream [completion_notice]]
           | _ => []
           end)%list)
  /\ (forall args : list value,
        In (Wrote error_stream args) (events dispatch (perform op) s) ->
        exists (c : Axios.call) (error : object),
          request_of op = Some c /\ answer dispatch s c = Axios.Rejected error).
Proof.
  rewrite events_perform. split.
  - intros c response Hreq Hok. rewrite Hreq, Hok. destruct op; reflexivity.
  - intros args Hin.
    assert (Hquiet : ~ In (Wrote error_stream args) (epilogue op)).
    { destruct op; cbn [epilogue In]; intros Hep; try contradiction;
      destruct Hep as [H | []]; discriminate. }
    destruct (request_of op) as [c |]; [| contradiction].
    destruct (answer dispatch s c) as [response | error] eqn:Ho;
      [| exists c, error; split; [reflexivity | exact Ho]].
    destruct Hin as [H | [H | Hin]]; try discriminate. contradiction.
Qed.

(** X2.  A response that has no [data] property is no failure: the operation
    returns [undefined] and writes nothing to the error stream. *)
Theorem missing_data_returns_undefined
    (op : operation) (s : state world) (c : Axios.call) (response : object) :
  request_of op = Some c ->
  answer dispatch s c = Axios.Fulfilled response ->
  (forall v : value, ~ In ("data", v) response) ->
  outcome dispatch (perform op) s = Normal VUndefined
  /\ filter is_error_write (events dispatch (perform op) s) = [].
Proof.
  intros Hreq Hok Habsent.
  rewrite outcome_perform, error_writes_perform, Hreq, Hok,
    (lookup_absent "data" response Habsent).
  split; reflexivity.
Qed.

(** X4.  The [catch] block of [fetchPosts] on any caught value other than
    [null] and [undefined], an object or not: its property reads cannot
    throw, it writes exactly one entry to the error stream and then throws
    the very value it caught. *)
Theorem fetchPosts_catch_rethrows (caught : value) (s : state world) :
  nullish caught = false ->
  exists entry : list value,
    run dispatch (fetchPosts_catch caught) s
    = (Abrupt caught, [Wrote error_stream entry], s).
Proof.
  intros Hcaught. unfold fetchPosts_catch.
  assert (Hread : forall key, member caught key = Return (read caught key)).
  { intros key. destruct caught; try discriminate; reflexivity. }
  rewrite !Hread. cbn [bind].
  destruct (truthy (read caught "response")) eqn:Hr.
  - rewrite !(member_truthy _ _ Hr). eexists. reflexivity.
  - cbn [bind]. destruct (truthy (read caught "request")); eexists; reflexivity.
Qed.

(** X5.  On a caught [null] or [undefined] the [catch] block of [fetchPosts]
    does not get as far as its entry: reading [error.response] throws, so
    nothing is written and a TypeError leaves the block in place of the
    caught value. *)
Theorem fetchPosts_catch_on_nullish (caught : value) (s : state world) :
  nullish caught = true ->
  exists message : string,
    run dispatch (fetchPosts_catch caught) s = (Abrupt (TypeError message), [], s)
    /\ TypeError message <> caught.
Proof.
  intros Hcaught.
  destruct caught; try discriminate; eexists; (split; [reflexivity | discriminate]).
Qed.

End Callers.

(** * The statements at concrete inputs *)

(** Number::toString at a few doubles: integers, fractions, the largest and
    the smallest, and both sides of the switch to an exponent. *)
Example NumberToString_samples :
  map NumberToString
    [1; 42; -7; 2.5; 0x1.999999999999ap-4; 0x1.edd2f1a9fbe77p+6; 0x1p+60;
     0x1.b1ae4d6e2ef5p+69; 0x1.52d02c7e14af6p+76; 0x1.0c6f7a0b5ed8dp-20;
     0x1.ad7f29abcaf48p-24; 0x0.0000000000001p-1022; 0x1.fffffffffffffp+1023;
     nan; neg_zero; neg_infinity]%float
  = ["1"; "42"; "-7"; "2.5"; "0.1"; "123.456"; "1152921504606847000";
     "1e+21"; "1e+23"; "0.000001";
     "1e-7"; "5e-324"; "1.7976931348623157e+308";
     "NaN"; "0"; "-Infinity"].
Proof. vm_compute. reflexivity. Qed.

Example ToString_samples :
  map ToString
    [VUndefined; VNull; VBool false; VStr "a b"; VObj []; VObj [("valueOf", VNum 1)];
     VObj [("toString", VNum 1)]; VArr []; VArr [VNum 1; VNull; VStr "a"];
     VArr [VArr [VNum 1; VNum 2]; VArr [VNum 3]]; VArr [VNum 1; VObj [("toString", VNull)]]]
  = [Some "undefined"; Some "null"; Some "false"; Some "a b"; Some "[object Object]";
     Some "[object Object]"; None; Some ""; Some "1,,a"; Some "1,2,3"; None].
Proof. vm_compute. reflexivity. Qed.

Example fetchUser_on_404 :
  run Demo.service (fetchUser (VNum 1)) Demo.start
  = (Abrupt (VObj Demo.not_found),
     [Sent apiClient (Axios.get "/users/1" VUndefined);
      Settled (Axios.Rejected Demo.not_found);
      Wrote error_stream [VStr "Error fetching user with ID 1:"; VObj Demo.not_found];
      Wrote log_stream [VStr "User fetch operation completed"]],
     Demo.start).
Proof. vm_compute. reflexivity. Qed.

Example fetchUser_without_text :
  run Demo.healthy (fetchUser (VObj [("toString", VNum 1)])) Demo.start
  = (Abrupt (TypeError "Cannot convert object to primitive value"),
     [Wrote log_stream [VStr "User fetch operation completed"]],
     Demo.start).
Proof. vm_compute. reflexivity. Qed.

Example fetchPostById_without_text :
  run Demo.healthy (fetchPostById (VObj [("toString", VNum 1)])) Demo.start
  = (Abrupt (TypeError "Cannot convert object to primitive value"), [], Demo.start).
Proof. vm_compute. reflexivity. Qed.

Example fetchPosts_offline :
  events Demo.offline (fetchPosts VUndefined) Demo.start
  = [Sent apiClient (Axios.get "/posts" (VObj [("params", VObj [("_limit", VNum 10)])]));
     Settled (Axios.Rejected [("message", VStr "Network Error");
                              ("request", VObj [("readyState", VNum 4)])]);
     Wrote error_stream [VStr "Network Error:"; VObj [("readyState", VNum 4)]]].
Proof. reflexivity. Qed.

(** Against C1 as stated: [fetchPostById(1)] and a service that answers 404.
    The error is of the remote-responded kind and a read operation caught
    it, yet the one entry written is the prefix and the error itself, not a
    label followed by the status and the body. *)
Lemma generic_entry_does_not_classify :
  exists (op : operation) (c : Axios.call) (error : object),
    is_read op = true
    /\ request_of op = Some c
    /\ answer Demo.service Demo.start c = Axios.Rejected error
    /\ classify error = RemoteResponded (VNum 404) (VObj [])
    /\ filter is_error_write (events Demo.service (perform op) Demo.start)
       = [Wrote error_stream [VStr "Error fetching post with ID 1:"; VObj error]]
    /\ forall args : list value,
         In (Wrote error_stream args) (events Demo.service (perform op) Demo.start) ->
         ~ reports (classify error) args.
Proof.
  exists (FetchPostById (VNum 1)), (Axios.get "/posts/1" VUndefined), Demo.not_found.
  split; [reflexivity |]. split; [vm_compute; reflexivity |].
  split; [reflexivity |]. split; [reflexivity |].
  split; [vm_compute; reflexivity |].
  intros args Hin [label Hargs]. vm_compute in Hin.
  destruct Hin as [H | [H | [H | []]]]; try discriminate.
  injection H as <-. cbn in Hargs. discriminate.
Qed.

Lemma classification_only_in_fetchPosts_witness :
  (exists entry : list value,
     filter is_error_write (events Demo.service (fetchPosts (VNum 5)) Demo.start)
       = [Wrote error_stream entry]
     /\ (reports (classify Demo.not_found) entry
         /\ entry = label_of (classify Demo.not_found) :: carried (classify Demo.not_found))
     /\ outcome Demo.service (fetchPosts (VNum 5)) Demo.start = Abrupt (VObj Demo.not_found))
  /\ (filter is_error_write
        (events Demo.service (fetchPostById (VObj [("toString", VNum 1)])) Demo.start) = []
      /\ calls (events Demo.service (fetchPostById (VObj [("toString", VNum 1)])) Demo.start)
         = []
      /\ outcome Demo.service (fetchPostById (VObj [("toString", VNum 1)])) Demo.start
         = Abrupt cannot_convert).
Proof.
  split.
  - exact (proj1 (classification_only_in_fetchPosts unit Demo.service
                    (FetchPosts (VNum 5)) Demo.start)
             _ Demo.not_found eq_refl eq_refl).
  - exact (proj2 (classification_only_in_fetchPosts unit Demo.service
                    (FetchPostById (VObj [("toString", VNum 1)])) Demo.start)
             eq_refl).
Defined.

Lemma failure_logged_then_rethrown_witness :
  outcome Demo.service (fetchUser (VNum 7)) Demo.start = Abrupt (VObj Demo.not_found)
  /\ calls (events Demo.service (fetchUser (VNum 7)) Demo.start)
       = [Axios.get "/users/7" VUndefined]
  /\ exists entry : list value,
       events Demo.service (fetchUser (VNum 7)) Demo.start
       = [Sent apiClient (Axios.get "/users/7" VUndefined);
          Settled (Axios.Rejected Demo.not_found);
          Wrote error_stream entry;
          Wrote log_stream [completion_notice]].
Proof.
  exact (failure_logged_then_rethrown unit Demo.service (FetchUser (VNum 7)) Demo.start
           (Axios.get "/users/7" VUndefined) Demo.not_found eq_refl eq_refl).
Defined.

Lemma fetchPosts_requests_limit_witness :
  PrimFloat.ltb 0 5 = true
  /\ calls (events Demo.healthy (fetchPosts (VNum 5)) Demo.start)
       = [Axios.get "/posts" (VObj [("params", VObj [("_limit", VNum 5)])])]
  /\ outcome Demo.healthy (fetchPosts (VNum 5)) Demo.start = Normal (VArr []).
Proof.
  split; [reflexivity |].
  split.
  - exact (proj1 (fetchPosts_requests_limit unit Demo.healthy 5 Demo.start eq_refl)).
  - exact (proj2 (proj2 (fetchPosts_requests_limit unit Demo.healthy 5 Demo.start eq_refl))
             _ eq_refl).
Defined.

Lemma fetchUser_completion_notice_once_witness :
  length (filter is_completion_notice
            (events Demo.service (fetchUser (VNum 7)) Demo.start)) = 1
  /\ length (filter is_completion_notice
               (events Demo.healthy (fetchUser (VObj [("toString", VNum 1)])) Demo.start))
     = 1.
Proof.
  split.
  - exact (proj1 (fetchUser_completion_notice_once unit Demo.service (VNum 7) Demo.start)).
  - exact (proj1 (fetchUser_completion_notice_once unit Demo.healthy
                    (VObj [("toString", VNum 1)]) Demo.start)).
Defined.

Lemma createPost_passes_through_witness :
  outcome Demo.healthy (createPost (VObj [("title", VStr "foo")])) Demo.start
  = Normal (VObj [("title", VStr "foo")]).
Proof.
  exact (proj2 (createPost_passes_through unit Demo.healthy
                  (VObj [("title", VStr "foo")]) Demo.start) _ eq_refl).
Defined.



(** Against C8 as stated.  [fetchUser(1)] and a service that answers 404: the
    operation throws the failure on without having classified it.
    [fetchPostById] on an id without a text and a service that would have
    served it: the operation makes no call, so it neither returns a payload
    nor throws a failure of the transport on. *)
Lemma neither_payload_nor_classified_failure :
  (exists (op : operation) (c : Axios.call) (error : object),
     request_of op = Some c
     /\ answer Demo.service Demo.start c = Axios.Rejected error
     /\ outcome Demo.service (perform op) Demo.start = Abrupt (VObj error)
     /\ forall args : list value,
          In (Wrote error_stream args) (events Demo.service (perform op) Demo.start) ->
          ~ reports (classify error) args)
  /\ (exists op : operation,
        calls (events Demo.healthy (perform op) Demo.start) = []
        /\ outcome Demo.healthy (perform op) Demo.start
           = Abrupt (TypeError "Cannot convert object to primitive value")).
Proof.
  split.
  - exists (FetchUser (VNum 1)), (Axios.get "/users/1" VUndefined), Demo.not_found.
    split; [vm_compute; reflexivity |]. split; [reflexivity |].
    split; [vm_compute; reflexivity |].
    intros args Hin [label Hargs]. vm_compute in Hin.
    destruct Hin as [H | [H | [H | [H | []]]]]; try discriminate.
    injection H as <-. cbn in Hargs. discriminate.
  - exists (FetchPostById (VObj [("toString", VNum 1)])). split; reflexivity.
Qed.

Lemma returns_payload_or_rethrows_witness :
  (outcome Demo.healthy (createPost (VObj [("title", VStr "foo")])) Demo.start
     = Normal (VObj [("title", VStr "foo")])
   /\ filter is_error_write
        (events Demo.healthy (createPost (VObj [("title", VStr "foo")])) Demo.start) = [])
  /\ (outcome Demo.service (fetchUser (VNum 7)) Demo.start = Abrupt (VObj Demo.not_found)
      /\ filter is_error_write (events Demo.service (fetchUser (VNum 7)) Demo.start)
         = [Wrote error_stream
              [VStr "Error fetching user with ID 7:"; VObj Demo.not_found]])
  /\ (calls (events Demo.healthy (fetchUser (VObj [("toString", VNum 1)])) Demo.start) = []
      /\ outcome Demo.healthy (fetchUser (VObj [("toString", VNum 1)])) Demo.start
         = Abrupt cannot_convert).
Proof.
  pose proof (returns_payload_or_rethrows unit Demo.healthy
                (CreatePost (VObj [("title", VStr "foo")])) Demo.start) as Hcreate.
  pose proof (returns_payload_or_rethrows unit Demo.service
                (FetchUser (VNum 7)) Demo.start) as Huser.
  pose proof (returns_payload_or_rethrows unit Demo.healthy
                (FetchUser (VObj [("toString", VNum 1)])) Demo.start) as Hbad.
  vm_compute (request_of _) in Hcreate, Huser, Hbad.
  vm_compute (answer _ _ _) in Hcreate, Huser.
  vm_compute (failure_entry _ _) in Huser.
  cbv iota in Hcreate, Huser, Hbad.
  destruct Hcreate as (_ & Hpayload & Hsilent).
  destruct Huser as (_ & Hthrown & Hentry & _).
  destruct Hbad as (_ & Hcalls & Hlocal & _).
  split; [split; [exact Hpayload | exact Hsilent] |].
  split; [split; [exact Hthrown | exact Hentry] |].
  split; [exact Hcalls | exact Hlocal].
Defined.

(** Against C9 as stated: [fetchPosts(undefined)].  The default initialiser
    replaces the argument, and the [_limit] that goes out is 10. *)
Lemma undefined_limit_is_replaced :
  exists limit : value,
    calls (events Demo.healthy (fetchPosts limit) Demo.start)
      = [Axios.get "/posts" (VObj [("params", VObj [("_limit", VNum 10)])])]
    /\ calls (events Demo.healthy (fetchPosts limit) Demo.start)
       <> [Axios.get "/posts" (VObj [("params", VObj [("_limit", limit)])])].
Proof.
  exists VUndefined. split; [reflexivity |].
  cbn. intros H. discriminate.
Qed.

Lemma inputs_are_not_validated_witness :
  calls (events Demo.service (fetchPosts (VNum (-2.5))) Demo.start)
    = [Axios.get "/posts" (VObj [("params", VObj [("_limit", VNum (-2.5))])])]
  /\ (calls (events Demo.service (fetchPostById (VNum 2.5)) Demo.start)
        = [Axios.get "/posts/2.5" VUndefined]
      /\ calls (events Demo.service (fetchUser (VNum 2.5)) Demo.start)
           = [Axios.get "/users/2.5" VUndefined]).
Proof.
  pose proof (inputs_are_not_validated unit Demo.service
                (VNum (-2.5)) (VNum 2.5) (FetchUser VNull) Demo.start) as H.
  vm_compute (ToString (VNum 2.5)) in H. cbv iota in H.
  destruct H as (Hlimit & Hid & _).
  - discriminate.
  - split; [exact Hlimit | exact Hid].
Defined.

(** ** The further properties at concrete inputs *)

Lemma fulfilled_call_is_silent_witness :
  events Demo.healthy (fetchUser (VNum 7)) Demo.start
  = [Sent apiClient (Axios.get "/users/7" VUndefined);
     Settled (Axios.Fulfilled [("data", VArr []); ("status", VNum 200)]);
     Wrote log_stream [completion_notice]].
Proof.
  exact (proj1 (fulfilled_call_is_silent unit Demo.healthy (FetchUser (VNum 7)) Demo.start)
           (Axios.get "/users/7" VUndefined) _ eq_refl eq_refl).
Defined.

Lemma missing_data_returns_undefined_witness :
  outcome Edge.no_content (fetchUser (VNum 1)) Demo.start = Normal VUndefined
  /\ filter is_error_write (events Edge.no_content (fetchUser (VNum 1)) Demo.start) = [].
Proof.
  apply (missing_data_returns_undefined unit Edge.no_content
           (FetchUser (VNum 1)) Demo.start (Axios.get "/users/1" VUndefined)
           [("status", VNum 204)]).
  - reflexivity.
  - reflexivity.
  - intros v [H | []]. discriminate.
Defined.

Lemma fetchPosts_catch_rethrows_witness :
  exists entry : list value,
    run Demo.service (fetchPosts_catch (VStr "boom")) Demo.start
    = (Abrupt (VStr "boom"), [Wrote error_stream entry], Demo.start).
Proof.
  exact (fetchPosts_catch_rethrows unit Demo.service (VStr "boom") Demo.start eq_refl).
Defined.

Lemma fetchPosts_catch_on_nullish_witness :
  exists message : string,
    run Demo.service (fetchPosts_catch VNull) Demo.start
      = (Abrupt (TypeError message), [], Demo.start)
    /\ TypeError message <> VNull.
Proof.
  exact (fetchPosts_catch_on_nullish unit Demo.service VNull Demo.start eq_refl).
Defined.
